(** * code_winner: the question grading contract and the battle models

    A shallow embedding of [src/cs_battles/models.py] and
    [src/cs_questions/models.py], with the properties the specification
    states about them.

    Conventions of the embedding:
    - a Django model instance is a record; a nullable field is an [option];
    - a [datetime] is its number of microseconds since the epoch (a [Z]), a
      [timedelta] a number of microseconds;
    - a Python [float] is an IEEE 754 binary64 value ([spec_float] with
      precision 53 and maximal exponent 1024);
    - a method that mutates [self], saves it or raises is a computation in
      the monad [M]: it threads the object and the log of the rows written
      by [save()], and keeps both when an exception is raised. *)

From Stdlib Require Import ZArith QArith Qabs Floats.SpecFloat.
From stdpp Require Import base list strings.

Open Scope Z_scope.

(** ** The fragment of Python the models rely on *)

Module Py.

(** The exceptions the modelled code can raise; the last three are the
    errors of the battle response tracker. *)
Inductive exc : Type :=
| TypeError
| ValueError
| AttributeError
| DoesNotExist
| SubmissionRejected
| RunnerUnavailable
| RunnerTimeout.

Inductive res (A : Type) : Type :=
| Ok (a : A)
| Raise (e : exc).
Arguments Ok {A} a.
Arguments Raise {A} e.

Definition is_ok {A} (r : res A) : bool :=
  match r with
  | Ok _ => true
  | Raise _ => false
  end.

(** The object a method runs on, and the rows [save()] has written so far
    (oldest first). *)
Record World (T : Type) : Type := mkWorld { self : T; saved : list T }.
Arguments mkWorld {T} self saved.
Arguments self {T} w.
Arguments saved {T} w.

Definition M (T A : Type) : Type := World T → res A * World T.

Definition ret {T A} (a : A) : M T A := fun w => (Ok a, w).

Definition bind {T A B} (m : M T A) (f : A → M T B) : M T B :=
  fun w =>
    match m w with
    | (Ok a, w') => f a w'
    | (Raise e, w') => (Raise e, w')
    end.

Definition raise {T A} (e : exc) : M T A := fun w => (Raise e, w).

Definition lift {T A} (r : res A) : M T A := fun w => (r, w).

Definition get {T} : M T T := fun w => (Ok (self w), w).

Definition put {T} (x : T) : M T unit :=
  fun w => (Ok tt, mkWorld x (saved w)).

(** [self.save()]: the current state of the object is written. *)
Definition save {T} : M T unit :=
  fun w => (Ok tt, mkWorld (self w) (saved w ++ [self w])).

(** Truth value of the results of [and]/[or] chains over model instances. *)
Inductive value (T : Type) : Type :=
| VNone
| VBool (b : bool)
| VObj (o : T).
Arguments VNone {T}.
Arguments VBool {T} b.
Arguments VObj {T} o.

Definition truthy {T} (v : value T) : bool :=
  match v with
  | VNone => false
  | VBool b => b
  | VObj _ => true
  end.

(** [a and b]: [a] when it is falsy, [b] otherwise. *)
Definition py_and {T} (a b : value T) : value T :=
  if truthy a then b else a.

(** [not a]. *)
Definition py_not {T} (a : value T) : value T := VBool (negb (truthy a)).

(** [min(iterable, key=key)]: the key of every item is computed in order;
    an item replaces the current best only when its key is strictly
    smaller; an empty iterable raises [ValueError]. *)
Section Min.
Context {A : Type} (key : A → res Z).

Fixpoint min_loop (best : A) (kbest : Z) (l : list A) : res A :=
  match l with
  | [] => Ok best
  | x :: l' =>
      match key x with
      | Raise e => Raise e
      | Ok kx =>
          if kx <? kbest then min_loop x kx l' else min_loop best kbest l'
      end
  end.

Definition py_min (l : list A) : res A :=
  match l with
  | [] => Raise ValueError
  | x :: l' =>
      match key x with
      | Raise e => Raise e
      | Ok kx => min_loop x kx l'
      end
  end.
End Min.

(** [r], at position [i] of [l], has the least key [k] of [l], and every
    item enumerated before it has a strictly greater key. *)
Definition first_min {A : Type} (k : A → Z) (l : list A) (i : nat) (r : A)
  : Prop :=
  l !! i = Some r
  ∧ (∀ j x, l !! j = Some x → k r ≤ k x)
  ∧ (∀ j x, (j < i)%nat → l !! j = Some x → k r < k x).

End Py.

Import Py.

(** The monad is used through stdpp's [x ← m; k] and [m;; k] notations. *)
#[global] Instance M_ret {T} : MRet (M T) := fun A => @ret T A.
#[global] Instance M_bind {T} : MBind (M T) := fun A B f m => @bind T A B m f.

(** ** cs_battles.models *)

Module cs_battles.

(** Modelled from the spec: the attribute [source], which [winner_length]
    reads, is not defined by the class [BattleResponse] of [models.py]; it
    is "the underlying submitted source text" of the response and is kept
    here as a field. The other fields are those of the class; a record is a
    row of the table, that is a response that has been created ([br_pk] is
    its key, [response] and [battle] the keys of the rows it points to). *)
Record BattleResponse : Type := mkBattleResponse {
  br_pk : Z;
  response : Z;
  time_begin : Z;
  time_end : option Z;
  battle : Z;
  source : string
}.

(** The item handed to [BattleResponse.update]; [created] is its creation
    timestamp. *)
Record ResponseItem : Type := mkResponseItem {
  item_pk : Z;
  created : Z
}.

(** A [Battle] with its relations: [invitations_user] lists the invited
    users, [battles] the rows of [BattleResponse] that point to the battle,
    in the order the related manager enumerates them. *)
Record Battle : Type := mkBattle {
  id : Z;
  date : Z;
  invitations_user : list Z;
  battle_owner : Z;
  battle_winner : option BattleResponse;
  question : Z;
  type : string;
  language : Z;
  battles : list BattleResponse
}.

Definition set_battle_winner (b : Battle) (w : option BattleResponse) : Battle :=
  mkBattle (id b) (date b) (invitations_user b) (battle_owner b) w
           (question b) (type b) (language b) (battles b).

Definition set_time_end (r : BattleResponse) (t : option Z) : BattleResponse :=
  mkBattleResponse (br_pk r) (response r) (time_begin r) t (battle r) (source r).

(** [queryset.first()]: an instance or [None]. *)
Definition first {T} (l : list T) : value T :=
  match l with
  | [] => VNone
  | x :: _ => VObj x
  end.

(** A model instance or [None], as a condition. *)
Definition of_option {T} (o : option T) : value T :=
  match o with
  | None => VNone
  | Some x => VObj x
  end.

(** A queryset as a condition: true when it has a row. The result of [not]
    is a boolean whatever the type of the instances around it. *)
Definition of_queryset {T U} (l : list U) : value T :=
  VBool (negb (bool_decide (length l = 0%nat))).

(** [Battle.is_active] *)
Definition is_active (b : Battle) : value BattleResponse :=
  py_and (py_and (first (battles b))
                 (py_not (of_option (battle_winner b))))
         (py_not (of_queryset (T := BattleResponse) (invitations_user b))).

(** [Battle.winner_length] *)
Definition source_length (r : BattleResponse) : res Z :=
  Ok (Z.of_nat (String.length (source r))).

Definition winner_length (b : Battle) : res BattleResponse :=
  py_min source_length (battles b).

(** [Battle.winner_time]: the key subtracts [time_end] from itself;
    [None - None] is a [TypeError]. *)
Definition source_time (r : BattleResponse) : res Z :=
  match time_end r, time_end r with
  | Some t1, Some t2 => Ok (t1 - t2)
  | _, _ => Raise TypeError
  end.

Definition winner_time (b : Battle) : res BattleResponse :=
  py_min source_time (battles b).

(** The key the specification gives for [winner_time]: the elapsed time
    [time_end - time_begin] of a response that has a [time_end]. *)
Definition spec_elapsed (r : BattleResponse) : option Z :=
  match time_end r with
  | Some t => Some (t - time_begin r)
  | None => None
  end.

(** [getattr(self, 'winner_' + self.type)()] *)
Definition winner_by_type (b : Battle) : res BattleResponse :=
  if String.eqb (type b) "length" then winner_length b
  else if String.eqb (type b) "time" then winner_time b
  else Raise AttributeError.

(** [Battle.determine_winner] *)
Definition determine_winner : M Battle (option BattleResponse) :=
  b ← get ;
  (if truthy (is_active b) then
     w ← lift (winner_by_type b) ;
     put (set_battle_winner b (Some w)) ;;
     save
   else mret tt) ;;
  b' ← get ;
  mret (battle_winner b').

(** [BattleResponse.update] *)
Definition update (response_item : ResponseItem) : M BattleResponse unit :=
  r ← get ;
  put (set_time_end r (Some (created response_item))) ;;
  save.

End cs_battles.

(** ** cs_questions.models *)

Module cs_questions.

(** Python floats: binary64 arithmetic, rounding to nearest, ties to even. *)
Definition float : Type := spec_float.
Definition prec : Z := 53.
Definition emax : Z := 1024.

Definition fadd (x y : float) : float := SFadd prec emax x y.
Definition fsub (x y : float) : float := SFsub prec emax x y.
Definition fdiv (x y : float) : float := SFdiv prec emax x y.
Definition fabs (x : float) : float := SFabs x.
Definition fle (x y : float) : bool := SFleb x y.
Definition feq (x y : float) : bool := SFeqb x y.

(** [float(z)] of an integer, and the literal [n/d] read as the quotient of
    two exactly represented integers. *)
Definition of_int (z : Z) : float := binary_normalize prec emax z 0 false.
Definition of_ratio (n d : Z) : float := fdiv (of_int n) (of_int d).

(** The real number a float stands for, as a reduced fraction (none for
    infinities and NaN). *)
Definition exact (x : float) : option Q :=
  match x with
  | S754_zero _ => Some 0%Q
  | S754_finite s m e =>
      Some (Qred (inject_Z (if s then Z.neg m else Z.pos m) * Qpower 2 e))%Q
  | S754_infinity _ | S754_nan => None
  end.

(** A user as the permission checks see it: its primary key, [None] as
    long as the user has not been saved. *)
Module User.
Record t : Type := mk {
  pk : option Z
}.
End User.

Module Question.
Record t : Type := mk {
  pk : option Z;
  title : string;
  short_description : string;
  long_description : string;
  author_name : string;
  comment : string;
  discipline : option Z;
  owner : option User.t;
  is_active : bool
}.

(** [Question.grade]: the answer of the question (read by [answer]) is
    compared with the value of the response (read by [value]);
    [feedback_cls] builds the feedback object. The attribute
    [feedback_cls] is not defined in [models.py]: it is a parameter. *)
Section Grade.
Context {Q R V F : Type} `{EqDecision V}.
Context (answer : Q → V) (value : R → V) (feedback_cls : R → bool → F).

Definition grade (self : Q) (response : R) : F :=
  feedback_cls response (bool_decide (answer self = value response)).
End Grade.

(** [Question.can_edit]: [self.owner.pk == user.pk] compares the two keys,
    [None] included. *)
Definition can_edit (self : t) (user : option User.t) : bool :=
  match user, owner self with
  | None, _ => false
  | _, None => false
  | Some u, Some o => bool_decide (User.pk o = User.pk u)
  end.
End Question.

Module QuestionActivity.
Record t : Type := mk {
  pk : Z;
  question_base : Question.t
}.
End QuestionActivity.

(** An activity; [questionactivity] is the child row of a question
    activity, absent for the other kinds of activity. *)
Module Activity.
Record t : Type := mk {
  pk : Z;
  questionactivity : option QuestionActivity.t
}.
End Activity.

Module QuestionResponse.
Record t : Type := mk {
  activity : option Activity.t;
  question_for_unbound : option Question.t
}.

Definition set_question_for_unbound (r : t) (q : option Question.t) : t :=
  mk (activity r) q.

(** The getter of the property [question_base]:
    [self.question_for_unbound or
     self.activity.questionactivity.question_base]. *)
Definition question_base (self : t) : res Question.t :=
  match question_for_unbound self with
  | Some q => Ok q
  | None =>
      match activity self with
      | None => Raise AttributeError
      | Some a =>
          match Activity.questionactivity a with
          | None => Raise DoesNotExist
          | Some qa => Ok (QuestionActivity.question_base qa)
          end
      end
  end.

(** The setter of the property [question_base]. *)
Definition set_question_base (value : Question.t) : M t unit :=
  self ← get ;
  match activity self with
  | None => put (set_question_for_unbound self (Some value))
  | Some _ =>
      q ← lift (question_base self) ;
      if bool_decide (Question.pk q ≠ Question.pk value)
      then raise AttributeError
      else mret tt
  end.
End QuestionResponse.

Module NumericResponse.
Record t : Type := mk {
  base : QuestionResponse.t;
  value : float;
  feedback_data : option float;
  grade : option Z
}.

Definition set_grade (r : t) (g : Z) : t :=
  mk (base r) (value r) (feedback_data r) (Some g).

Definition set_feedback_data (r : t) (d : float) : t :=
  mk (base r) (value r) (Some d) (grade r).

Definition autograde : M t unit :=
  self ← get ;
  put (set_feedback_data self (value self)).
End NumericResponse.

Module NumericQuestion.
Record t : Type := mk {
  base : Question.t;
  answer : float;
  tolerance : float
}.

Definition is_exact (self : t) : bool := feq (tolerance self) (of_int 0).

Definition start (self : t) : float :=
  fsub (answer self) (fabs (tolerance self)).

Definition end_ (self : t) : float :=
  fadd (answer self) (fabs (tolerance self)).

Definition range (self : t) : float * float := (start self, end_ self).

Definition grade (self : t) : M NumericResponse.t unit :=
  response ← get ;
  let '(x, y) := range self in
  put (NumericResponse.set_grade response
         (if fle x (NumericResponse.value response)
             && fle (NumericResponse.value response) y
          then 100 else 0)) ;;
  save.
End NumericQuestion.

(** [NumericResponse.get_grade_from_feedback], on the question the
    response resolves to; [None - float] is a [TypeError]. *)
Definition get_grade_from_feedback (question : NumericQuestion.t)
    (self : NumericResponse.t) : res Z :=
  match NumericResponse.feedback_data self with
  | None => Raise TypeError
  | Some d =>
      Ok (if fle (fabs (fsub d (NumericQuestion.answer question)))
                 (NumericQuestion.tolerance question)
          then 100 else 0)
  end.

Module StringMatchQuestion.
Record t : Type := mk {
  base : Question.t;
  answer : string;
  is_regex : bool
}.

(** [StringMatchQuestion.grade]: the regex branch reads the value and
    falls off the end of the method, which returns [None]. *)
Section Grade.
Context {R F : Type} (value : R → string) (feedback_cls : R → bool → F).

Definition grade (self : t) (response : R) : option F :=
  if is_regex self then
    let value := value response in None
  else
    Some (Question.grade answer value feedback_cls self response).
End Grade.
End StringMatchQuestion.

Module BooleanQuestion.
Record t : Type := mk {
  base : Question.t;
  answer : bool
}.
End BooleanQuestion.






End cs_questions.

(** ** The battle response tracker *)

Module tracker.
Import cs_battles.

(** Modelled from the spec: [limit_submitions], the [give_up] flag, the
    submissions of a participant and [submit_code] are not defined in
    [cs_battles/models.py] (only [test_models.py] uses them). The
    definitions of this module follow section 4.4 of the specification.
    A battle carries its cap [limit_submitions]. *)
Record TrackedBattle : Type := mkTrackedBattle {
  battle_row : Battle;
  limit_submitions : Z
}.

Section Tracker.
(** The result of a run, and the code runner applied to the source, the
    question and the language. *)
Context {ExecutionResult : Type}.
Context (execute : string → Z → Z → res ExecutionResult).

(** Modelled from the spec: the session of a participant, that is its
    [BattleResponse], the [give_up] flag (field [gave_up]) and the response
    items its submissions have created, oldest first. A run that produced
    an item counts as a submission; a run that failed does not. *)
Record Participant : Type := mkParticipant {
  tracked : BattleResponse;
  gave_up : bool;
  items : list (ResponseItem * ExecutionResult)
}.

Definition submissions (p : Participant) : Z := Z.of_nat (length (items p)).

Definition has_winner (b : TrackedBattle) : bool :=
  match battle_winner (battle_row b) with
  | Some _ => true
  | None => false
  end.

(** Modelled from the spec: a submission is valid only when the cap of the
    battle is strictly positive and the battle has no winner yet; it is
    refused to a participant who is exhausted (the cap is reached) or has
    given up. *)
Definition may_submit (b : TrackedBattle) (p : Participant) : bool :=
  bool_decide (0 < limit_submitions b)
  && negb (has_winner b)
  && bool_decide (submissions p < limit_submitions b)
  && negb (gave_up p).

(** Modelled from the spec: [submit_code(source)] fails with
    [SubmissionRejected] when the submission is not valid. Otherwise the
    source, the question and the language go to the code runner; a failure
    of the runner is raised and consumes nothing; a result is wrapped as a
    new response item, [time_end] becomes the creation time of the item, the
    session is saved and the item returned. *)
Definition submit_code (b : TrackedBattle) (now : Z) (src : string)
  : M Participant ResponseItem :=
  p ← get ;
  if may_submit b p then
    result ← lift (execute src (question (battle_row b))
                           (language (battle_row b))) ;
    let item := mkResponseItem (submissions p) now in
    put (mkParticipant (set_time_end (tracked p) (Some (created item)))
                       (gave_up p)
                       (items p ++ [(item, result)])) ;;
    save ;;
    mret item
  else raise SubmissionRejected.

(** A sequence of submission attempts of one participant, each against
    the state of the battle at that time; the result of every attempt
    is kept. *)
Fixpoint attempts (calls : list (TrackedBattle * Z * string))
    (w : World Participant) : list (res ResponseItem) * World Participant :=
  match calls with
  | [] => ([], w)
  | (b, now, src) :: calls' =>
      let '(r, w') := submit_code b now src w in
      let '(rs, w'') := attempts calls' w' in
      (r :: rs, w'')
  end.

Definition successes (rs : list (res ResponseItem)) : nat :=
  length (List.filter is_ok rs).
End Tracker.

End tracker.

(** ** Concrete battles, questions and responses *)

Module examples.
Import cs_battles.

(** Two participants of battle 1: [slow] took 12.3 s, [fast] 9.8 s;
    [slow] is enumerated first. [open] never ended. *)
Definition slow : BattleResponse :=
  mkBattleResponse 1 1 0 (Some 12300000) 1 "print('Oi');a=1+1;".
Definition fast : BattleResponse :=
  mkBattleResponse 2 2 1000000 (Some 10800000) 1 "print('Oi');".
Definition tied : BattleResponse :=
  mkBattleResponse 3 3 0 (Some 5000000) 1 "print('Hi');".
Definition open : BattleResponse :=
  mkBattleResponse 4 4 0 None 1 "pass".

Definition battle_of (ty : string) (winner : option BattleResponse)
    (invited : list Z) (rs : list BattleResponse) : Battle :=
  mkBattle 1 0 invited 7 winner 3 ty 1 rs.

Definition time_battle : Battle := battle_of "time" None [] [slow; fast].
Definition length_battle : Battle :=
  battle_of "length" None [] [slow; fast; tied].
Definition closed_battle : Battle :=
  battle_of "length" (Some fast) [] [slow; fast].

Definition fresh {T} (x : T) : World T := mkWorld x [].

Import cs_questions.

Definition question_of (pk : Z) (title : string) : Question.t :=
  Question.mk (Some pk) title EmptyString EmptyString EmptyString EmptyString
              None None true.

(** Two questions; activity 5 is an activity of the first one. *)
Definition q1 : Question.t := question_of 1 "sum".
Definition q2 : Question.t := question_of 2 "product".
Definition act1 : Activity.t :=
  Activity.mk 5 (Some (QuestionActivity.mk 5 q1)).

Definition unbound : QuestionResponse.t := QuestionResponse.mk None None.
Definition bound : QuestionResponse.t := QuestionResponse.mk (Some act1) None.
(** A response of activity 5 that also carries a question of its own. *)
Definition bound_with_own : QuestionResponse.t :=
  QuestionResponse.mk (Some act1) (Some q2).

Definition numeric (answer tolerance : float) : NumericQuestion.t :=
  NumericQuestion.mk q1 answer tolerance.
Definition answered (v : float) : NumericResponse.t :=
  NumericResponse.mk unbound v None None.

(** The grade [NumericQuestion.grade] leaves on a response. *)
Definition graded (q : NumericQuestion.t) (r : NumericResponse.t)
  : option Z :=
  NumericResponse.grade (self (NumericQuestion.grade q (fresh r)).2).

(** [NumericQuestion(answer=10, tolerance=0.5)] *)
Definition ten : NumericQuestion.t := numeric (of_int 10) (of_ratio 5 10).

(** [NumericQuestion(answer=9007199254740994, tolerance=1)]: the answer
    is 2^53 + 2, where consecutive floats are 2 apart. *)
Definition big : NumericQuestion.t :=
  numeric (of_int 9007199254740994) (of_int 1).

(** [NumericQuestion(answer=0.3, tolerance=0.1)] *)
Definition tenths : NumericQuestion.t :=
  numeric (of_ratio 3 10) (of_ratio 1 10).

Definition regex_question : StringMatchQuestion.t :=
  StringMatchQuestion.mk q1 "a+" true.
Definition plain_question : StringMatchQuestion.t :=
  StringMatchQuestion.mk q1 "42" false.

(** A textual response is its value; a feedback the pair of the response
    and of the verdict. *)
Definition text_value (r : string) : string := r.
Definition text_feedback (r : string) (ok : bool) : string * bool := (r, ok).

Import tracker.

(** A runner that times out on the empty source and returns the length of
    the source otherwise. *)
Definition runner (src : string) (question language : Z) : res nat :=
  if String.eqb src EmptyString then Raise RunnerTimeout else Ok (String.length src).

Definition capped (limit : Z) (b : Battle) : TrackedBattle :=
  mkTrackedBattle b limit.

Definition newcomer : Participant (ExecutionResult := nat) :=
  mkParticipant open false [].

(** Four attempts against a cap of two: the second is refused by the
    runner, the others are accepted until the cap is reached. *)
Definition four_calls : list (TrackedBattle * Z * string) :=
  [(capped 2 length_battle, 10, "print(1)");
   (capped 2 length_battle, 20, EmptyString);
   (capped 2 length_battle, 30, "print(2)");
   (capped 2 length_battle, 40, "print(3)")].

(** A battle of type [time] with a response that has not ended, a battle of
    an unknown type, a battle nobody joined and a battle with a pending
    invitation. *)
Definition unfinished_battle : Battle := battle_of "time" None [] [slow; open].
Definition speed_battle : Battle := battle_of "speed" None [] [slow; fast].
Definition empty_battle : Battle := battle_of "length" None [] [].
Definition invited_battle : Battle := battle_of "length" None [9] [slow; fast].

(** A late participant with a source of 4 characters. *)
Definition terse : BattleResponse :=
  mkBattleResponse 5 5 0 (Some 1000000) 1 "id()".

(** [NumericQuestion(answer=10, tolerance=-1)] and
    [NumericQuestion(answer=10)], whose tolerance is the default 0. *)
Definition negative : NumericQuestion.t := numeric (of_int 10) (of_int (-1)).
Definition strict : NumericQuestion.t := numeric (of_int 10) (of_int 0).

Definition owner_user : User.t := User.mk (Some 7).
Definition owned_question : Question.t :=
  Question.mk (Some 3) "owned" EmptyString EmptyString EmptyString EmptyString
              None (Some owner_user) true.

(** A user and a question that have not been saved, the question owned by
    the user; a numeric question built on it. *)
Definition unsaved_user : User.t := User.mk None.
Definition draft_question : Question.t :=
  Question.mk None "draft" EmptyString EmptyString EmptyString EmptyString
              None (Some unsaved_user) false.
End examples.

(** * Properties *)

(** ** [min] with a key *)

(** A lookup at the head of a list names the head. *)
Ltac head_item H :=
  cbn in H;
  try match type of H with
      | Some ?a = Some ?b => assert (b = a) as -> by congruence; clear H
      end.

Section MinFirst.
Context {A : Type} (key : A → res Z) (k : A → Z).

Lemma min_loop_first_min (l : list A) :
  ∀ best,
    (∀ x, x ∈ best :: l → key x = Ok (k x)) →
    ∃ i r, min_loop key best (k best) l = Ok r ∧ first_min k (best :: l) i r.
Proof.
  induction l as [|x l IH]; intros best Hkey.
  - exists 0%nat, best. split; [done|]. repeat split.
    + intros [|j] y Hy; head_item Hy; [lia|done].
    + intros j y Hj; lia.
  - cbn [min_loop]. rewrite (Hkey x) by (by repeat constructor).
    destruct (Z.ltb_spec (k x) (k best)) as [Hlt|Hge].
    + (* [x] becomes the best item *)
      destruct (IH x) as (i & r & Hrun & Hi & Hmin & Hbefore).
      { intros y Hy. apply Hkey. by right. }
      pose proof (Hmin 0%nat x eq_refl) as Hrx.
      exists (S i), r. split; [done|]. repeat split.
      * done.
      * intros [|j] y Hy; head_item Hy.
        -- lia.
        -- by eapply Hmin.
      * intros [|j] y Hj Hy; head_item Hy.
        -- lia.
        -- eapply Hbefore; [|done]. lia.
    + (* [best] stays *)
      destruct (IH best) as (i & r & Hrun & Hi & Hmin & Hbefore).
      { intros y [->|Hy]%elem_of_cons; apply Hkey; [by left|by do 2 right]. }
      destruct i as [|i].
      * head_item Hi.
        exists 0%nat, best. split; [done|]. repeat split.
        -- intros [|[|j]] y Hy; head_item Hy.
           ++ lia.
           ++ lia.
           ++ by apply (Hmin (S j)).
        -- intros j y Hj; lia.
      * pose proof (Hbefore 0%nat best ltac:(lia) eq_refl) as Hrb.
        exists (S (S i)), r. split; [done|]. repeat split.
        -- done.
        -- intros [|[|j]] y Hy; head_item Hy.
           ++ lia.
           ++ lia.
           ++ by apply (Hmin (S j)).
        -- intros [|[|j]] y Hj Hy; head_item Hy.
           ++ lia.
           ++ lia.
           ++ apply (Hbefore (S j)); [lia|done].
Qed.

Lemma py_min_first_min (l : list A) :
  l ≠ [] →
  (∀ x, x ∈ l → key x = Ok (k x)) →
  ∃ i r, py_min key l = Ok r ∧ first_min k l i r.
Proof.
  destruct l as [|x l]; [done|]. intros _ Hkey.
  cbn [py_min]. rewrite (Hkey x) by (by repeat constructor).
  by apply min_loop_first_min.
Qed.

End MinFirst.

Section MinKeys.
Context {A : Type} (key : A → res Z).

(** When all keys are equal nothing ever replaces the first item. *)
Lemma min_loop_constant_key (c : Z) (l : list A) (best : A) :
  (∀ x, x ∈ l → key x = Ok c) → min_loop key best c l = Ok best.
Proof.
  induction l as [|x l IH]; intros Hkey; [done|].
  cbn [min_loop]. rewrite (Hkey x) by (by repeat constructor).
  rewrite Z.ltb_irrefl. apply IH. intros y Hy. apply Hkey. by right.
Qed.

(** The first item whose key raises, with no item before it raising,
    makes [min] raise. *)
Lemma min_loop_raise (l1 l2 : list A) (x : A) (e : exc) :
  ∀ best kbest,
    (∀ y, y ∈ l1 → is_ok (key y) = true) →
    key x = Raise e →
    min_loop key best kbest (l1 ++ x :: l2) = Raise e.
Proof.
  induction l1 as [|y l1 IH]; intros best kbest Hok Hx; cbn.
  - by rewrite Hx.
  - pose proof (Hok y ltac:(by left)) as Hy.
    destruct (key y) as [ky|]; [|done].
    destruct (ky <? kbest); apply IH; auto; intros z Hz; apply Hok; by right.
Qed.
End MinKeys.

(** ** Battles *)

Section BattleProperties.
Import cs_battles.

Implicit Types (b : Battle) (r : BattleResponse) (w : World Battle).

Lemma truthy_is_active b :
  truthy (is_active b) =
    match battles b, battle_winner b, invitations_user b with
    | _ :: _, None, [] => true
    | _, _, _ => false
    end.
Proof.
  unfold is_active.
  destruct (battles b), (battle_winner b), (invitations_user b); reflexivity.
Qed.

(** C5. [Battle.is_active] is true exactly when the battle has at least one
    BattleResponse, no winner and no pending invitation; it then is the
    boolean [True] itself. *)
Theorem is_active_iff b :
  (truthy (is_active b) = true
   ↔ battles b ≠ [] ∧ battle_winner b = None ∧ invitations_user b = [])
  ∧ (is_active b = VBool true
     ↔ battles b ≠ [] ∧ battle_winner b = None ∧ invitations_user b = []).
Proof.
  unfold is_active.
  destruct (battles b), (battle_winner b), (invitations_user b);
    cbn; split; split;
    first [ intros (? & ? & ?); done | intros ?; by repeat split ].
Qed.

Lemma determine_winner_inactive w :
  truthy (is_active (self w)) = false →
  determine_winner w = (Ok (battle_winner (self w)), w).
Proof.
  intros Hin. unfold determine_winner, mbind, M_bind, bind, get. cbn.
  rewrite Hin. by destruct w.
Qed.

Lemma determine_winner_active w r :
  truthy (is_active (self w)) = true →
  winner_by_type (self w) = Ok r →
  determine_winner w =
    (Ok (Some r),
     mkWorld (set_battle_winner (self w) (Some r))
             (saved w ++ [set_battle_winner (self w) (Some r)])).
Proof.
  intros Hact Hwin. unfold determine_winner, mbind, M_bind, bind, get, lift.
  cbn. by rewrite Hact, Hwin.
Qed.

Lemma determine_winner_raises w e :
  truthy (is_active (self w)) = true →
  winner_by_type (self w) = Raise e →
  determine_winner w = (Raise e, w).
Proof.
  intros Hact Hwin. unfold determine_winner, mbind, M_bind, bind, get, lift.
  cbn. by rewrite Hact, Hwin.
Qed.

Lemma stored_winner_inactive b r :
  battle_winner b = Some r → truthy (is_active b) = false.
Proof.
  intros Hw. rewrite truthy_is_active, Hw. by destruct (battles b).
Qed.

(** C2. A battle whose winner is set returns it, and nothing is computed
    or written; whatever the battle, a second call returns what the first
    call returned and leaves the battle and the rows written as the first
    call left them. *)
Theorem determine_winner_idempotent w :
  (∀ r, battle_winner (self w) = Some r →
        determine_winner w = (Ok (Some r), w))
  ∧ (∀ res1 w1, determine_winner w = (res1, w1) →
                determine_winner w1 = (res1, w1)
                ∧ ∀ r, res1 = Ok (Some r) → battle_winner (self w1) = Some r).
Proof.
  split.
  - intros r Hw.
    rewrite determine_winner_inactive by by eapply stored_winner_inactive.
    by rewrite Hw.
  - intros res1 w1 Hrun.
    destruct (truthy (is_active (self w))) eqn:Hact.
    + destruct (winner_by_type (self w)) as [r|e] eqn:Hwin.
      * rewrite (determine_winner_active _ r) in Hrun by done.
        simplify_eq. split; [|naive_solver].
        by rewrite determine_winner_inactive
          by by eapply stored_winner_inactive.
      * rewrite (determine_winner_raises _ e) in Hrun by done.
        simplify_eq. split; [|done].
        by apply determine_winner_raises.
    + rewrite determine_winner_inactive in Hrun by done.
      simplify_eq. split; [|naive_solver].
      by apply determine_winner_inactive.
Qed.

Lemma source_time_ended r :
  is_Some (time_end r) → source_time r = Ok 0.
Proof.
  intros [t Ht]. unfold source_time. rewrite Ht. f_equal. lia.
Qed.

(** What [winner_time] computes: with every [time_end] set all keys are
    zero and the first response enumerated is returned. *)
Lemma winner_time_first b r l :
  battles b = r :: l →
  (∀ x, x ∈ r :: l → is_Some (time_end x)) →
  winner_time b = Ok r.
Proof.
  intros Hb Hended. unfold winner_time. rewrite Hb. cbn [py_min].
  rewrite source_time_ended by (apply Hended; by left).
  apply min_loop_constant_key.
  intros x Hx. apply source_time_ended, Hended. by right.
Qed.

(** A response without [time_end] makes [winner_time] raise. *)
Lemma winner_time_open b l1 x l2 :
  battles b = l1 ++ x :: l2 →
  (∀ y, y ∈ l1 → is_Some (time_end y)) →
  time_end x = None →
  winner_time b = Raise TypeError.
Proof.
  intros Hb Hended Hx. unfold winner_time. rewrite Hb.
  assert (source_time x = Raise TypeError) as Hkx
    by (unfold source_time; by rewrite Hx).
  destruct l1 as [|y l1]; cbn.
  - by rewrite Hkx.
  - rewrite source_time_ended by (apply Hended; by left).
    apply min_loop_raise; [|done].
    intros z Hz. rewrite source_time_ended; [done|]. apply Hended. by right.
Qed.

(** C1. In a battle of two responses that took 12.3 s and 9.8 s, both
    ended, [winner_time] returns the response enumerated first, which is
    the one that took 12.3 s: the elapsed time plays no part. *)
Theorem winner_time_ignores_elapsed :
  winner_time examples.time_battle = Ok examples.slow
  ∧ spec_elapsed examples.slow = Some 12300000
  ∧ spec_elapsed examples.fast = Some 9800000.
Proof.
  split; [|done].
  apply (winner_time_first _ examples.slow [examples.fast]); [done|].
  intros x Hx. apply elem_of_cons in Hx as [->|Hx]; [by eexists|].
  apply list_elem_of_singleton in Hx as ->. by eexists.
Qed.

(** C3. In a battle with at least one response [winner_length] returns a
    response whose source is at most as long as that of every response of
    the battle and strictly shorter than that of every response enumerated
    before it; an active battle of type [length] stores and returns this
    response as its winner. *)
Theorem winner_length_first_minimal b :
  battles b ≠ [] →
  ∃ i r,
    winner_length b = Ok r
    ∧ battles b !! i = Some r
    ∧ (∀ j x, battles b !! j = Some x →
              (String.length (source r) ≤ String.length (source x))%nat)
    ∧ (∀ j x, (j < i)%nat → battles b !! j = Some x →
              (String.length (source r) < String.length (source x))%nat)
    ∧ (∀ rows, type b = "length" → truthy (is_active b) = true →
         determine_winner (mkWorld b rows) =
           (Ok (Some r),
            mkWorld (set_battle_winner b (Some r))
                    (rows ++ [set_battle_winner b (Some r)]))).
Proof.
  intros Hne.
  destruct (py_min_first_min source_length
              (fun r => Z.of_nat (String.length (source r)))
              (battles b) Hne) as (i & r & Hrun & Hi & Hmin & Hbefore);
    [done|].
  exists i, r. repeat split; try done.
  - intros j x Hx. specialize (Hmin j x Hx). lia.
  - intros j x Hj Hx. specialize (Hbefore j x Hj Hx). lia.
  - intros rows Hty Hact. apply determine_winner_active; [done|].
    unfold winner_by_type. cbn [self]. by rewrite Hty.
Qed.

Lemma winner_length_first_minimal_witness :
  battles examples.length_battle ≠ []
  ∧ ∃ i r,
      winner_length examples.length_battle = Ok r
      ∧ battles examples.length_battle !! i = Some r
      ∧ (∀ j x, battles examples.length_battle !! j = Some x →
                (String.length (source r) ≤ String.length (source x))%nat)
      ∧ (∀ j x, (j < i)%nat →
                battles examples.length_battle !! j = Some x →
                (String.length (source r) < String.length (source x))%nat)
      ∧ (∀ rows, type examples.length_battle = "length" →
           truthy (is_active examples.length_battle) = true →
           determine_winner (mkWorld examples.length_battle rows) =
             (Ok (Some r),
              mkWorld (set_battle_winner examples.length_battle (Some r))
                      (rows ++
                         [set_battle_winner examples.length_battle (Some r)]))).
Proof.
  split; [discriminate|].
  apply (winner_length_first_minimal examples.length_battle). discriminate.
Defined.

(** Of the two shortest sources of the example, the first enumerated wins. *)
Example winner_length_tie :
  winner_length examples.length_battle = Ok examples.fast
  ∧ String.length (source examples.fast) = String.length (source examples.tied).
Proof. split; reflexivity. Qed.

Lemma determine_winner_idempotent_witness :
  battle_winner (self (examples.fresh examples.closed_battle))
    = Some examples.fast
  ∧ determine_winner (examples.fresh examples.closed_battle)
    = (Ok (Some examples.fast), examples.fresh examples.closed_battle)
  ∧ determine_winner (examples.fresh examples.length_battle)
    = (Ok (Some examples.fast),
       mkWorld (set_battle_winner examples.length_battle (Some examples.fast))
               [set_battle_winner examples.length_battle (Some examples.fast)])
  ∧ determine_winner
      (mkWorld (set_battle_winner examples.length_battle (Some examples.fast))
               [set_battle_winner examples.length_battle (Some examples.fast)])
    = (Ok (Some examples.fast),
       mkWorld (set_battle_winner examples.length_battle (Some examples.fast))
               [set_battle_winner examples.length_battle (Some examples.fast)]).
Proof.
  split; [reflexivity|]. split; [|split].
  - apply (proj1 (determine_winner_idempotent
                    (examples.fresh examples.closed_battle))).
    reflexivity.
  - reflexivity.
  - apply (proj2 (determine_winner_idempotent
                    (examples.fresh examples.length_battle))).
    reflexivity.
Defined.

(** C8. [update] sets [time_end] to the creation time of the item, keeps
    every other field of the response and saves the response once. *)
Theorem update_sets_only_time_end (w : World BattleResponse)
    (response_item : ResponseItem) :
  ∃ r',
    update response_item w = (Ok tt, mkWorld r' (saved w ++ [r']))
    ∧ time_end r' = Some (created response_item)
    ∧ time_begin r' = time_begin (self w)
    ∧ battle r' = battle (self w)
    ∧ response r' = response (self w)
    ∧ br_pk r' = br_pk (self w)
    ∧ source r' = source (self w).
Proof.
  exists (set_time_end (self w) (Some (created response_item))).
  by repeat split.
Qed.
End BattleProperties.

(** ** Questions and responses *)

Section NumericProperties.
Import cs_questions.

Lemma numeric_grade_run (q : NumericQuestion.t) (w : World NumericResponse.t) :
  let g := if fle (NumericQuestion.start q) (NumericResponse.value (self w))
              && fle (NumericResponse.value (self w)) (NumericQuestion.end_ q)
           then 100 else 0 in
  NumericQuestion.grade q w =
    (Ok tt,
     mkWorld (NumericResponse.set_grade (self w) g)
             (saved w ++ [NumericResponse.set_grade (self w) g])).
Proof. reflexivity. Qed.

(** What [NumericQuestion.grade] computes: it stores 100 when
    [answer - |tolerance| <= value <= answer + |tolerance|], the two bounds
    being computed in binary64 arithmetic, and 0 otherwise, and saves the
    response; with answer 10 and tolerance 0.5 the value 10.4 gets 100 and
    the value 10.6 gets 0. *)
Theorem numeric_grade_range :
  (∀ (q : NumericQuestion.t) (w : World NumericResponse.t),
     ∃ g,
       NumericQuestion.grade q w =
         (Ok tt,
          mkWorld (NumericResponse.set_grade (self w) g)
                  (saved w ++ [NumericResponse.set_grade (self w) g]))
       ∧ (g = 100 ∨ g = 0)
       ∧ (g = 100
          ↔ fle (fsub (NumericQuestion.answer q)
                      (fabs (NumericQuestion.tolerance q)))
                (NumericResponse.value (self w)) = true
            ∧ fle (NumericResponse.value (self w))
                  (fadd (NumericQuestion.answer q)
                        (fabs (NumericQuestion.tolerance q))) = true))
  ∧ examples.graded examples.ten (examples.answered (of_ratio 104 10))
    = Some 100
  ∧ examples.graded examples.ten (examples.answered (of_ratio 106 10))
    = Some 0.
Proof.
  split; [|split; vm_compute; reflexivity].
  intros q w. eexists. split; [apply numeric_grade_run|].
  unfold NumericQuestion.start, NumericQuestion.end_.
  destruct (fle _ (NumericResponse.value (self w)));
    destruct (fle (NumericResponse.value (self w)) _); cbn;
    intuition (try lia; try congruence).
Qed.

(** C6. With answer 9007199254740994 and tolerance 1,
    [NumericQuestion.grade] gives 100 to the value 9007199254740996: the
    upper bound 9007199254740995 is not a float and rounds to
    9007199254740996. The distance from the value to the answer is 2, above
    the tolerance, both in float arithmetic and on the exact values, and
    [get_grade_from_feedback] gives 0 to the same response once
    [autograde] has recorded its value. *)
Theorem numeric_grade_beyond_tolerance :
  fle (of_int 0) (NumericQuestion.tolerance examples.big) = true
  ∧ examples.graded examples.big (examples.answered (of_int 9007199254740996))
    = Some 100
  ∧ fle (fabs (fsub (of_int 9007199254740996)
                    (NumericQuestion.answer examples.big)))
        (NumericQuestion.tolerance examples.big) = false
  ∧ exact (of_int 9007199254740996) = Some (9007199254740996 # 1)%Q
  ∧ exact (NumericQuestion.answer examples.big)
    = Some (9007199254740994 # 1)%Q
  ∧ exact (NumericQuestion.tolerance examples.big) = Some (1 # 1)%Q
  ∧ ¬ (Qabs ((9007199254740996 # 1) - (9007199254740994 # 1)) <= 1 # 1)%Q
  ∧ get_grade_from_feedback examples.big
      (self (NumericResponse.autograde
               (examples.fresh
                  (examples.answered (of_int 9007199254740996)))).2)
    = Ok 0.
Proof.
  repeat split; try (vm_compute; reflexivity).
  vm_compute. intros H. by apply H.
Qed.

(** The grade computed from the feedback compares the distance with the
    tolerance; with answer 0.3 and tolerance 0.1 it gives 0 to the value
    0.4, which [NumericQuestion.grade] grades 100. *)
Example numeric_grades_differ :
  examples.graded examples.tenths (examples.answered (of_ratio 4 10))
    = Some 100
  ∧ get_grade_from_feedback examples.tenths
      (NumericResponse.set_feedback_data
         (examples.answered (of_ratio 4 10)) (of_ratio 4 10))
    = Ok 0.
Proof. split; vm_compute; reflexivity. Qed.
End NumericProperties.

Section BindingProperties.
Import cs_questions cs_questions.QuestionResponse.

Implicit Types (w : World QuestionResponse.t) (value : Question.t).

Lemma set_question_base_bound w value a q :
  activity (self w) = Some a →
  question_base (self w) = Ok q →
  set_question_base value w =
    (if bool_decide (Question.pk q ≠ Question.pk value)
     then Raise AttributeError else Ok tt, w).
Proof.
  intros Ha Hq. unfold set_question_base, mbind, M_bind, bind, get, lift.
  cbn. rewrite Ha, Hq. by case_bool_decide.
Qed.

(** C7. A response bound to an activity has no [question_for_unbound]
    (the field is null for activity responses). Setting [question_base] on
    such a response to a question whose key differs from that of the
    question of its activity raises [AttributeError] and leaves the
    response as it was; more generally the new question is compared with
    the current [question_base] of the response. On a response without
    activity the given question is stored in [question_for_unbound]. *)
Theorem set_question_base_guard w value :
  (∀ a q, activity (self w) = Some a →
          question_base (self w) = Ok q →
          Question.pk q ≠ Question.pk value →
          set_question_base value w = (Raise AttributeError, w))
  ∧ (∀ a qa, activity (self w) = Some a →
             question_for_unbound (self w) = None →
             Activity.questionactivity a = Some qa →
             Question.pk (QuestionActivity.question_base qa)
               ≠ Question.pk value →
             set_question_base value w = (Raise AttributeError, w))
  ∧ (activity (self w) = None →
     set_question_base value w =
       (Ok tt,
        mkWorld (QuestionResponse.mk None (Some value)) (saved w))).
Proof.
  split; [|split].
  - intros a q Ha Hq Hpk.
    rewrite (set_question_base_bound _ _ a q) by done.
    by rewrite bool_decide_eq_true_2.
  - intros a qa Ha Hown Hqa Hpk.
    rewrite (set_question_base_bound _ _ a (QuestionActivity.question_base qa)).
    + by rewrite bool_decide_eq_true_2.
    + done.
    + unfold question_base. by rewrite Hown, Ha, Hqa.
  - intros Ha. unfold set_question_base, mbind, M_bind, bind, get, put.
    cbn. rewrite Ha. unfold set_question_for_unbound. by rewrite Ha.
Qed.

Lemma set_question_base_guard_witness :
  (activity (self (examples.fresh examples.bound)) = Some examples.act1
   ∧ question_for_unbound (self (examples.fresh examples.bound)) = None
   ∧ Activity.questionactivity examples.act1
     = Some (QuestionActivity.mk 5 examples.q1)
   ∧ Question.pk examples.q1 ≠ Question.pk examples.q2
   ∧ set_question_base examples.q2 (examples.fresh examples.bound)
     = (Raise AttributeError, examples.fresh examples.bound))
  ∧ (activity (self (examples.fresh examples.unbound)) = None
     ∧ set_question_base examples.q2 (examples.fresh examples.unbound)
       = (Ok tt,
          mkWorld (QuestionResponse.mk None (Some examples.q2)) [])).
Proof.
  split.
  - do 3 (split; [reflexivity|]). split; [discriminate|].
    apply (proj1 (proj2 (set_question_base_guard
                           (examples.fresh examples.bound) examples.q2))
             examples.act1 (QuestionActivity.mk 5 examples.q1));
      [reflexivity|reflexivity|reflexivity|discriminate].
  - split; [reflexivity|].
    apply (proj2 (proj2 (set_question_base_guard
                           (examples.fresh examples.unbound) examples.q2))).
    reflexivity.
Defined.

(** The setter does not itself keep [question_for_unbound] null on a
    response of an activity: if such a response carries question 2 while
    its activity is one of question 1, it accepts question 2 without
    raising and stays as it is. *)
Lemma set_question_base_silent :
  activity examples.bound_with_own = Some examples.act1
  ∧ Activity.questionactivity examples.act1
    = Some (QuestionActivity.mk 5 examples.q1)
  ∧ Question.pk examples.q2 ≠ Question.pk examples.q1
  ∧ set_question_base examples.q2 (examples.fresh examples.bound_with_own)
    = (Ok tt, examples.fresh examples.bound_with_own).
Proof. repeat split; try reflexivity. discriminate. Qed.
End BindingProperties.

Section StringMatchProperties.
Import cs_questions cs_questions.StringMatchQuestion.
Context {R F : Type} (value : R → string) (feedback_cls : R → bool → F).

(** C10. With [is_regex] set [grade] returns [None]: no feedback is
    built, nothing is compared. Only with [is_regex] unset does it return
    a feedback, the one [Question.grade] builds from the comparison of the
    stored answer with the value of the response. *)
Theorem string_match_grade (q : StringMatchQuestion.t) (r : R) :
  (is_regex q = true → grade value feedback_cls q r = None)
  ∧ (is_regex q = false →
     grade value feedback_cls q r
       = Some (Question.grade answer value feedback_cls q r)
     ∧ Question.grade answer value feedback_cls q r
       = feedback_cls r (bool_decide (answer q = value r)))
  ∧ (is_Some (grade value feedback_cls q r) ↔ is_regex q = false).
Proof.
  unfold grade. destruct (is_regex q); cbn.
  - split; [done|]. split; [done|]. split; [by intros [? ?]|done].
  - split; [done|]. split; [done|]. split; [done|by eexists].
Qed.
End StringMatchProperties.

Lemma string_match_grade_witness :
  (cs_questions.StringMatchQuestion.is_regex examples.regex_question = true
   ∧ cs_questions.StringMatchQuestion.grade
       examples.text_value examples.text_feedback
       examples.regex_question "aaa" = None)
  ∧ (cs_questions.StringMatchQuestion.is_regex examples.plain_question = false
     ∧ cs_questions.StringMatchQuestion.grade
         examples.text_value examples.text_feedback
         examples.plain_question "42" = Some ("42", true)
     ∧ cs_questions.StringMatchQuestion.grade
         examples.text_value examples.text_feedback
         examples.plain_question "41" = Some ("41", false)).
Proof.
  split; [split; [reflexivity|]|split; [reflexivity|split]].
  - apply (proj1 (string_match_grade examples.text_value
                    examples.text_feedback examples.regex_question "aaa")).
    reflexivity.
  - apply (proj1 (proj1 (proj2 (string_match_grade examples.text_value
                    examples.text_feedback examples.plain_question "42"))
                    eq_refl)).
  - apply (proj1 (proj1 (proj2 (string_match_grade examples.text_value
                    examples.text_feedback examples.plain_question "41"))
                    eq_refl)).
Defined.

(** ** The battle response tracker *)

Section TrackerProperties.
Import cs_battles tracker.
Context {ExecutionResult : Type}.
Context (execute : string → Z → Z → res ExecutionResult).

Implicit Types (b : TrackedBattle).
Implicit Types (w : World (Participant (ExecutionResult := ExecutionResult))).

Lemma submit_code_refused b now src w :
  may_submit b (self w) = false →
  submit_code execute b now src w = (Raise SubmissionRejected, w).
Proof.
  intros Hno. unfold submit_code, mbind, M_bind, bind, get. cbn.
  by rewrite Hno.
Qed.

(** An attempt either creates exactly one item or leaves everything as it
    was. *)
Lemma submit_code_items b now src w :
  match submit_code execute b now src w with
  | (Ok item, w') =>
      ∃ result, items (self w') = items (self w) ++ [(item, result)]
  | (Raise _, w') => w' = w
  end.
Proof.
  unfold submit_code, mbind, M_bind, bind, get, lift, raise. cbn.
  destruct (may_submit b (self w)); [|done].
  destruct (execute _ _ _) as [result|e]; cbn; [|done].
  by exists result.
Qed.

Lemma attempts_count calls :
  ∀ w rs w',
    attempts execute calls w = (rs, w') →
    length (items (self w')) = (length (items (self w)) + successes rs)%nat.
Proof.
  induction calls as [|[[b now] src] calls IH]; intros w rs w' Hrun.
  - cbn in Hrun. injection Hrun as <- <-. cbn. lia.
  - cbn [attempts] in Hrun.
    pose proof (submit_code_items b now src w) as Hone.
    destruct (submit_code execute b now src w) as [r w1].
    destruct (attempts execute calls w1) as [rs1 w2] eqn:Hrest.
    injection Hrun as <- <-.
    specialize (IH _ _ _ Hrest). rewrite IH.
    destruct r as [item|e]; unfold successes; cbn.
    + destruct Hone as [result ->]. rewrite length_app. cbn. lia.
    + by rewrite Hone.
Qed.

(** C4. Once a participant who started without submissions has [N]
    successful submissions in a battle capped at [N > 0], a further
    attempt is refused with [SubmissionRejected] and leaves the
    participant, the items included, as it was; so is every attempt in a
    battle whose cap is zero or negative or that has a winner. *)
Theorem submit_code_rejected b now src :
  (∀ calls p0 rows rs w,
     0 < limit_submitions b →
     items p0 = [] →
     attempts execute calls (mkWorld p0 rows) = (rs, w) →
     Z.of_nat (successes rs) = limit_submitions b →
     submit_code execute b now src w = (Raise SubmissionRejected, w))
  ∧ (∀ w,
       limit_submitions b ≤ 0 ∨ battle_winner (battle_row b) ≠ None →
       submit_code execute b now src w = (Raise SubmissionRejected, w)).
Proof.
  split.
  - intros calls p0 rows rs w Hpos Hfresh Hrun Hcount.
    apply submit_code_refused.
    apply attempts_count in Hrun. cbn [self] in Hrun.
    rewrite Hfresh in Hrun. cbn in Hrun.
    unfold may_submit, submissions. rewrite Hrun, Hcount.
    rewrite (bool_decide_eq_false_2 (limit_submitions b < _)) by lia.
    by rewrite andb_false_r.
  - intros w [Hcap|Hwon]; apply submit_code_refused; unfold may_submit.
    + by rewrite (bool_decide_eq_false_2 (0 < _)) by lia.
    + unfold has_winner. destruct (battle_winner (battle_row b)); [|done].
      cbn. by rewrite andb_false_r.
Qed.
End TrackerProperties.

Lemma submit_code_rejected_witness :
  (0 < tracker.limit_submitions (examples.capped 2 examples.length_battle)
   ∧ tracker.items examples.newcomer = []
   ∧ tracker.successes
       (tracker.attempts examples.runner examples.four_calls
          (examples.fresh examples.newcomer)).1 = 2%nat
   ∧ tracker.submit_code examples.runner
       (examples.capped 2 examples.length_battle) 50 "print(4)"
       (tracker.attempts examples.runner examples.four_calls
          (examples.fresh examples.newcomer)).2
     = (Raise SubmissionRejected,
        (tracker.attempts examples.runner examples.four_calls
           (examples.fresh examples.newcomer)).2))
  ∧ (tracker.limit_submitions (examples.capped 0 examples.length_battle) ≤ 0
     ∧ tracker.submit_code examples.runner
         (examples.capped 0 examples.length_battle) 50 "print(4)"
         (examples.fresh examples.newcomer)
       = (Raise SubmissionRejected, examples.fresh examples.newcomer))
  ∧ (cs_battles.battle_winner examples.closed_battle ≠ None
     ∧ tracker.submit_code examples.runner
         (examples.capped 2 examples.closed_battle) 50 "print(4)"
         (examples.fresh examples.newcomer)
       = (Raise SubmissionRejected, examples.fresh examples.newcomer)).
Proof.
  split; [|split].
  - split; [reflexivity|]. split; [reflexivity|]. split; [reflexivity|].
    apply (proj1 (submit_code_rejected examples.runner
                    (examples.capped 2 examples.length_battle) 50 "print(4)")
             examples.four_calls examples.newcomer []
             (tracker.attempts examples.runner examples.four_calls
                (examples.fresh examples.newcomer)).1).
    + reflexivity.
    + reflexivity.
    + reflexivity.
    + reflexivity.
  - split; [discriminate|].
    apply (proj2 (submit_code_rejected examples.runner
                    (examples.capped 0 examples.length_battle) 50 "print(4)")).
    left. discriminate.
  - split; [discriminate|].
    apply (proj2 (submit_code_rejected examples.runner
                    (examples.capped 2 examples.closed_battle) 50 "print(4)")).
    right. discriminate.
Defined.

(** ** More on [min] with a key *)

Section MinResults.
Context {A : Type} (key : A → res Z).

Lemma min_loop_elem (l : list A) :
  ∀ best kbest r, min_loop key best kbest l = Ok r → r ∈ best :: l.
Proof.
  induction l as [|x l IH]; intros best kbest r Hrun; cbn in Hrun.
  - injection Hrun as ->. by left.
  - destruct (key x) as [kx|]; [|done].
    destruct (kx <? kbest); apply IH in Hrun;
      apply elem_of_cons in Hrun as [->|Hr].
    + right. by left.
    + by do 2 right.
    + by left.
    + by do 2 right.
Qed.

Lemma py_min_elem (l : list A) (r : A) : py_min key l = Ok r → r ∈ l.
Proof.
  destruct l as [|x l]; cbn; [done|].
  destruct (key x) as [kx|]; [|done]. apply min_loop_elem.
Qed.

Lemma min_loop_raise_inv (l : list A) :
  ∀ best kbest e,
    min_loop key best kbest l = Raise e → ∃ x, x ∈ l ∧ key x = Raise e.
Proof.
  induction l as [|x l IH]; intros best kbest e Hrun; cbn in Hrun; [done|].
  destruct (key x) as [kx|e'] eqn:Hx.
  - destruct (kx <? kbest); apply IH in Hrun as (y & Hy & Hky);
      exists y; (split; [by right|done]).
  - injection Hrun as ->. exists x. split; [by left|done].
Qed.

Lemma py_min_raise_inv (l : list A) (e : exc) :
  py_min key l = Raise e →
  (l = [] ∧ e = ValueError) ∨ ∃ x, x ∈ l ∧ key x = Raise e.
Proof.
  destruct l as [|x l]; cbn.
  - intros [= <-]. by left.
  - intros Hrun. right. destruct (key x) as [kx|e'] eqn:Hx.
    + apply min_loop_raise_inv in Hrun as (y & Hy & Hky).
      exists y. split; [by right|done].
    + injection Hrun as ->. exists x. split; [by left|done].
Qed.

(** When [e] is the only exception the key can raise, one item whose key
    raises is enough for [min] to raise [e]. *)
Lemma min_loop_some_raise (e : exc) (l : list A) :
  (∀ y e', key y = Raise e' → e' = e) →
  ∀ best kbest,
    (∃ x, x ∈ l ∧ key x = Raise e) →
    min_loop key best kbest l = Raise e.
Proof.
  intros Honly. induction l as [|y l IH]; intros best kbest (x & Hx & Hkx).
  - by apply elem_of_nil in Hx.
  - cbn. destruct (key y) as [ky|e'] eqn:Hy.
    + apply elem_of_cons in Hx as [->|Hx]; [congruence|].
      destruct (ky <? kbest); apply IH; by exists x.
    + by rewrite (Honly y e' Hy).
Qed.

Lemma py_min_some_raise (e : exc) (l : list A) :
  (∀ y e', key y = Raise e' → e' = e) →
  (∃ x, x ∈ l ∧ key x = Raise e) →
  py_min key l = Raise e.
Proof.
  intros Honly (x & Hx & Hkx). destruct l as [|y l].
  - by apply elem_of_nil in Hx.
  - cbn. destruct (key y) as [ky|e'] eqn:Hy.
    + apply elem_of_cons in Hx as [->|Hx]; [congruence|].
      apply min_loop_some_raise; [done|]. by exists x.
    + by rewrite (Honly y e' Hy).
Qed.
End MinResults.

Section MinAppend.
Context {A : Type} (k : A → Z).

(** [min] over a list followed by another continues from the best item of
    the first list. *)
Lemma min_loop_app (l l' : list A) :
  ∀ best,
    min_loop (fun x => Ok (k x)) best (k best) (l ++ l') =
      match min_loop (fun x => Ok (k x)) best (k best) l with
      | Ok r => min_loop (fun x => Ok (k x)) r (k r) l'
      | Raise e => Raise e
      end.
Proof.
  induction l as [|x l IH]; intros best; cbn; [done|].
  destruct (k x <? k best); apply IH.
Qed.
End MinAppend.

(** ** Battles: resolution, failures and what is written *)

Section BattleResolution.
Import cs_battles.

Implicit Types (b : Battle) (r : BattleResponse) (w : World Battle).

Lemma set_battle_winner_same b : set_battle_winner b (battle_winner b) = b.
Proof. by destruct b. Qed.

Lemma source_time_raise r e :
  source_time r = Raise e → e = TypeError ∧ time_end r = None.
Proof.
  unfold source_time. destruct (time_end r); [done|]. by intros [= <-].
Qed.

Lemma active_has_responses b :
  truthy (is_active b) = true →
  battles b ≠ [] ∧ battle_winner b = None ∧ invitations_user b = [].
Proof.
  rewrite truthy_is_active.
  destruct (battles b), (battle_winner b), (invitations_user b); done.
Qed.

Lemma winner_by_type_elem b r : winner_by_type b = Ok r → r ∈ battles b.
Proof.
  unfold winner_by_type, winner_length, winner_time.
  destruct (String.eqb (type b) "length"); [apply py_min_elem|].
  destruct (String.eqb (type b) "time"); [apply py_min_elem|done].
Qed.

(** X1. [determine_winner] keeps the winner among the responses of the
    battle: when the stored winner, if any, is a response of the battle
    before the call, so is it after the call, and a winner the call returns
    is a response of the battle. *)
Theorem determine_winner_keeps_participant w res w' :
  (∀ r, battle_winner (self w) = Some r → r ∈ battles (self w)) →
  determine_winner w = (res, w') →
  (∀ r, battle_winner (self w') = Some r → r ∈ battles (self w'))
  ∧ (∀ r, res = Ok (Some r) → r ∈ battles (self w')).
Proof.
  intros Hinv Hrun.
  destruct (truthy (is_active (self w))) eqn:Hact.
  - destruct (winner_by_type (self w)) as [r0|e] eqn:Hwin.
    + rewrite (determine_winner_active _ r0) in Hrun by done.
      injection Hrun as <- <-. cbn.
      apply winner_by_type_elem in Hwin.
      split; intros r [= <-]; done.
    + rewrite (determine_winner_raises _ e) in Hrun by done.
      injection Hrun as <- <-. split; [done|]. intros r [=].
  - rewrite determine_winner_inactive in Hrun by done.
    injection Hrun as <- <-. split; [done|].
    intros r [= Hr]. by apply Hinv.
Qed.

Lemma determine_winner_keeps_participant_witness :
  (∀ r, battle_winner (self (examples.fresh examples.length_battle)) = Some r →
        r ∈ battles (self (examples.fresh examples.length_battle)))
  ∧ examples.fast
      ∈ battles
          (self (determine_winner (examples.fresh examples.length_battle)).2).
Proof.
  split; [intros r [=]|].
  apply (proj2 (determine_winner_keeps_participant
                  (examples.fresh examples.length_battle)
                  (Ok (Some examples.fast))
                  (determine_winner (examples.fresh examples.length_battle)).2
                  ltac:(intros r [=]) eq_refl)).
  reflexivity.
Defined.

(** X2. A failure of [determine_winner] happens on an active battle only,
    changes nothing and writes nothing. When the type of the battle is not
    [length] there are two failures only: [TypeError] when the type is
    [time] and one of the responses has no [time_end], [AttributeError]
    when the type is not [time] either; an active battle of such an
    unknown type always fails so. *)
Theorem determine_winner_failures w :
  (∀ e w',
     determine_winner w = (Raise e, w') →
     w' = w
     ∧ truthy (is_active (self w)) = true
     ∧ (type (self w) ≠ "length" →
        (e = TypeError ∧ type (self w) = "time"
         ∧ ∃ x, x ∈ battles (self w) ∧ time_end x = None)
        ∨ (e = AttributeError ∧ type (self w) ≠ "time")))
  ∧ (truthy (is_active (self w)) = true →
     type (self w) ≠ "length" → type (self w) ≠ "time" →
     determine_winner w = (Raise AttributeError, w)).
Proof.
  split.
  - intros e w' Hrun.
    destruct (truthy (is_active (self w))) eqn:Hact;
      [|by rewrite determine_winner_inactive in Hrun].
    destruct (winner_by_type (self w)) as [r|e0] eqn:Hwin;
      [by rewrite (determine_winner_active _ r) in Hrun|].
    rewrite (determine_winner_raises _ e0) in Hrun by done.
    injection Hrun as <- <-. split; [done|]. split; [done|].
    intros Hlen.
    apply active_has_responses in Hact as (Hne & _ & _).
    unfold winner_by_type, winner_time in Hwin.
    rewrite (proj2 (String.eqb_neq _ _) Hlen) in Hwin.
    destruct (String.eqb_spec (type (self w)) "time") as [Htime|Htime].
    + apply py_min_raise_inv in Hwin as [[Hnil _]|(x & Hin & Hx)]; [done|].
      apply source_time_raise in Hx as [-> Hx]. left. eauto.
    + injection Hwin as <-. by right.
  - intros Hact Hlen Htime. apply determine_winner_raises; [done|].
    unfold winner_by_type.
    by rewrite (proj2 (String.eqb_neq _ _) Hlen),
               (proj2 (String.eqb_neq _ _) Htime).
Qed.

Lemma determine_winner_failures_witness :
  (determine_winner (examples.fresh examples.unfinished_battle)
     = (Raise TypeError, examples.fresh examples.unfinished_battle)
   ∧ type examples.unfinished_battle = "time"
   ∧ ∃ x, x ∈ battles examples.unfinished_battle ∧ time_end x = None)
  ∧ (truthy (is_active examples.speed_battle) = true
     ∧ type examples.speed_battle ≠ "length"
     ∧ type examples.speed_battle ≠ "time"
     ∧ determine_winner (examples.fresh examples.speed_battle)
       = (Raise AttributeError, examples.fresh examples.speed_battle)).
Proof.
  split.
  - split; [reflexivity|].
    destruct (proj1 (determine_winner_failures
                (examples.fresh examples.unfinished_battle)) TypeError
                (examples.fresh examples.unfinished_battle) eq_refl)
      as (_ & _ & Hkind).
    destruct (Hkind ltac:(discriminate)) as [(_ & Hty & Hx)|(Hne & _)].
    + exact (conj Hty Hx).
    + discriminate Hne.
  - split; [reflexivity|]. split; [discriminate|]. split; [discriminate|].
    apply (proj2 (determine_winner_failures
                    (examples.fresh examples.speed_battle)));
      [reflexivity|discriminate|discriminate].
Defined.

(** X3. [winner_time] raises [TypeError] as soon as one response of the
    battle, wherever it is enumerated, has no [time_end]. *)
Theorem winner_time_unfinished b :
  (∃ x, x ∈ battles b ∧ time_end x = None) →
  winner_time b = Raise TypeError.
Proof.
  intros (x & Hin & Hx). apply py_min_some_raise.
  - intros y e' Hy. by apply source_time_raise in Hy as [-> _].
  - exists x. split; [done|]. unfold source_time. by rewrite Hx.
Qed.

Lemma winner_time_unfinished_witness :
  (∃ x, x ∈ battles examples.unfinished_battle ∧ time_end x = None)
  ∧ winner_time examples.unfinished_battle = Raise TypeError.
Proof.
  assert (∃ x, x ∈ battles examples.unfinished_battle ∧ time_end x = None)
    as Hopen.
  { exists examples.open. split; [|reflexivity]. right. left. }
  split; [exact Hopen|].
  exact (winner_time_unfinished examples.unfinished_battle Hopen).
Defined.

(** X4. [determine_winner] changes no field of the battle other than
    [battle_winner]. It leaves the battle and the rows written untouched,
    unless the battle had no winner: it then stores the winner it returns
    and saves the battle once. *)
Theorem determine_winner_frame w res w' :
  determine_winner w = (res, w') →
  set_battle_winner (self w') (battle_winner (self w)) = self w
  ∧ (w' = w
     ∨ (battle_winner (self w) = None
        ∧ ∃ r, res = Ok (Some r)
               ∧ battle_winner (self w') = Some r
               ∧ saved w' = saved w ++ [self w'])).
Proof.
  intros Hrun.
  destruct (truthy (is_active (self w))) eqn:Hact.
  - destruct (winner_by_type (self w)) as [r0|e] eqn:Hwin.
    + rewrite (determine_winner_active _ r0) in Hrun by done.
      injection Hrun as <- <-. cbn.
      apply active_has_responses in Hact as (_ & Hnone & _).
      split; [by destruct (self w)|]. right. split; [done|]. by exists r0.
    + rewrite (determine_winner_raises _ e) in Hrun by done.
      injection Hrun as <- <-.
      split; [apply set_battle_winner_same|by left].
  - rewrite determine_winner_inactive in Hrun by done.
    injection Hrun as <- <-.
    split; [apply set_battle_winner_same|by left].
Qed.

Lemma determine_winner_frame_witness :
  set_battle_winner
    (self (determine_winner (examples.fresh examples.invited_battle)).2)
    (battle_winner (self (examples.fresh examples.invited_battle)))
  = self (examples.fresh examples.invited_battle).
Proof.
  apply (proj1 (determine_winner_frame
                  (examples.fresh examples.invited_battle)
                  (determine_winner (examples.fresh examples.invited_battle)).1
                  (determine_winner (examples.fresh examples.invited_battle)).2
                  eq_refl)).
Defined.

(** X5. In an active battle of type [time] whose responses all have a
    [time_end], [determine_winner] stores and returns the response
    enumerated first, whatever the times of the responses. *)
Theorem time_battle_first_wins w r l :
  type (self w) = "time" →
  battles (self w) = r :: l →
  (∀ x, x ∈ r :: l → is_Some (time_end x)) →
  battle_winner (self w) = None →
  invitations_user (self w) = [] →
  determine_winner w =
    (Ok (Some r),
     mkWorld (set_battle_winner (self w) (Some r))
             (saved w ++ [set_battle_winner (self w) (Some r)])).
Proof.
  intros Hty Hb Hended Hnone Hinv. apply determine_winner_active.
  - rewrite truthy_is_active. by rewrite Hb, Hnone, Hinv.
  - unfold winner_by_type. rewrite Hty. cbn.
    by apply (winner_time_first _ r l).
Qed.

Lemma time_battle_first_wins_witness :
  determine_winner (examples.fresh examples.time_battle) =
    (Ok (Some examples.slow),
     mkWorld (set_battle_winner examples.time_battle (Some examples.slow))
             [set_battle_winner examples.time_battle (Some examples.slow)]).
Proof.
  apply (time_battle_first_wins (examples.fresh examples.time_battle)
           examples.slow [examples.fast]); try reflexivity.
  intros x Hx. apply elem_of_cons in Hx as [->|Hx]; [by eexists|].
  apply list_elem_of_singleton in Hx as ->. by eexists.
Defined.

(** X6. A response that joins last takes the place of the winner by length
    only when its source is strictly shorter than the source of the
    winner so far. *)
Theorem winner_length_late_entrant b b' r x :
  winner_length b = Ok r →
  battles b' = battles b ++ [x] →
  winner_length b' =
    Ok (if (String.length (source x) <? String.length (source r))%nat
        then x else r).
Proof.
  unfold winner_length. intros Hwin ->.
  destruct (battles b) as [|y l]; [done|].
  unfold source_length in *. cbn [py_min app] in Hwin |- *.
  rewrite (min_loop_app (fun r0 => Z.of_nat (String.length (source r0)))).
  rewrite Hwin. cbn [min_loop].
  destruct (Nat.ltb_spec (String.length (source x)) (String.length (source r)))
    as [Hlt|Hge].
  - by rewrite (proj2 (Z.ltb_lt _ _)) by lia.
  - by rewrite (proj2 (Z.ltb_ge _ _)) by lia.
Qed.

Lemma winner_length_late_entrant_witness :
  winner_length examples.length_battle = Ok examples.fast
  ∧ winner_length
      (examples.battle_of "length" None []
         (battles examples.length_battle ++ [examples.terse]))
    = Ok examples.terse
  ∧ winner_length
      (examples.battle_of "length" None []
         (battles examples.length_battle ++ [examples.tied]))
    = Ok examples.fast.
Proof.
  split; [reflexivity|]. split.
  - apply (winner_length_late_entrant examples.length_battle
             (examples.battle_of "length" None []
                (battles examples.length_battle ++ [examples.terse]))
             examples.fast examples.terse); reflexivity.
  - apply (winner_length_late_entrant examples.length_battle
             (examples.battle_of "length" None []
                (battles examples.length_battle ++ [examples.tied]))
             examples.fast examples.tied); reflexivity.
Defined.
End BattleResolution.

(** ** Responses: what the setters of the question leave behind *)

Section BindingRoundTrip.
Import cs_questions cs_questions.QuestionResponse.

Implicit Types (w : World QuestionResponse.t) (value : Question.t).

Lemma set_question_base_unbound w value :
  activity (self w) = None →
  set_question_base value w =
    (Ok tt, mkWorld (set_question_for_unbound (self w) (Some value)) (saved w)).
Proof.
  intros Ha. unfold set_question_base, mbind, M_bind, bind, get, put.
  cbn. by rewrite Ha.
Qed.

Lemma set_question_base_bound_raise w value a e :
  activity (self w) = Some a →
  question_base (self w) = Raise e →
  set_question_base value w = (Raise e, w).
Proof.
  intros Ha Hq. unfold set_question_base, mbind, M_bind, bind, get, lift.
  cbn. by rewrite Ha, Hq.
Qed.

(** The three ways a call of the setter on a bound response ends. *)
Lemma set_question_base_bound_cases w value a :
  activity (self w) = Some a →
  (∃ e, question_base (self w) = Raise e
        ∧ set_question_base value w = (Raise e, w))
  ∨ (∃ q, question_base (self w) = Ok q
          ∧ Question.pk q ≠ Question.pk value
          ∧ set_question_base value w = (Raise AttributeError, w))
  ∨ (∃ q, question_base (self w) = Ok q
          ∧ Question.pk q = Question.pk value
          ∧ set_question_base value w = (Ok tt, w)).
Proof.
  intros Ha. destruct (question_base (self w)) as [q|e] eqn:Hq.
  - right. rewrite (set_question_base_bound _ _ a q) by done.
    case_bool_decide as Hpk.
    + left. by exists q.
    + right. by exists q.
  - left. exists e. split; [done|].
    by apply (set_question_base_bound_raise _ _ a).
Qed.

(** X7. When the setter of [question_base] returns without raising, the
    getter of [question_base] then succeeds and gives a question with the
    key of the one that was set; a second identical call succeeds too and
    changes nothing more. *)
Theorem set_question_base_then_get w value w' :
  set_question_base value w = (Ok tt, w') →
  (∃ q, question_base (self w') = Ok q
        ∧ Question.pk q = Question.pk value)
  ∧ set_question_base value w' = (Ok tt, w').
Proof.
  intros Hset. destruct (activity (self w)) as [a|] eqn:Ha.
  - destruct (set_question_base_bound_cases w value a Ha)
      as [(e & _ & Hr)|[(q & _ & _ & Hr)|(q & Hq & Hpk & Hr)]];
      rewrite Hr in Hset; try done.
    injection Hset as <-. split; [by exists q|done].
  - rewrite set_question_base_unbound in Hset by done.
    injection Hset as <-. split.
    + exists value. by unfold question_base.
    + rewrite set_question_base_unbound by done. done.
Qed.

Lemma set_question_base_then_get_witness :
  set_question_base examples.q2 (examples.fresh examples.unbound)
    = (Ok tt, mkWorld (mk None (Some examples.q2)) [])
  ∧ (∃ q, question_base (mk None (Some examples.q2)) = Ok q
          ∧ Question.pk q = Question.pk examples.q2)
  ∧ set_question_base examples.q2 (mkWorld (mk None (Some examples.q2)) [])
    = (Ok tt, mkWorld (mk None (Some examples.q2)) []).
Proof.
  split; [reflexivity|].
  apply (set_question_base_then_get (examples.fresh examples.unbound)
           examples.q2 (mkWorld (mk None (Some examples.q2)) [])).
  reflexivity.
Defined.

(** X8. The setter of [question_base] never modifies a response that is
    bound to an activity: it raises or returns, and the response is as
    before. On any response it keeps the activity, saves nothing, and can
    only raise [AttributeError] or [DoesNotExist]. *)
Theorem set_question_base_frame w value res w' :
  set_question_base value w = (res, w') →
  activity (self w') = activity (self w)
  ∧ saved w' = saved w
  ∧ (activity (self w) ≠ None → w' = w)
  ∧ (∀ e, res = Raise e →
          activity (self w) ≠ None
          ∧ (e = AttributeError ∨ e = DoesNotExist)).
Proof.
  intros Hset. destruct (activity (self w)) as [a|] eqn:Ha.
  - assert (w' = w ∧ ∀ e, res = Raise e →
                          e = AttributeError ∨ e = DoesNotExist)
      as [-> Hexc].
    { destruct (set_question_base_bound_cases w value a Ha)
        as [(e & Hq & Hr)|[(q & _ & _ & Hr)|(q & _ & _ & Hr)]];
        rewrite Hr in Hset; injection Hset as <- <-; (split; [done|]).
      - intros e' [= <-]. unfold question_base in Hq. rewrite Ha in Hq.
        destruct (question_for_unbound (self w)); [done|].
        destruct (Activity.questionactivity a); [done|].
        injection Hq as <-. by right.
      - intros e' [= <-]. by left.
      - intros e' [=]. }
    rewrite Ha. repeat split; try done. by apply Hexc.
  - rewrite set_question_base_unbound in Hset by done.
    injection Hset as <- <-. cbn. repeat split; try done.
Qed.

Lemma set_question_base_frame_witness :
  activity (self (examples.fresh examples.bound_with_own)) ≠ None
  ∧ (set_question_base examples.q1
       (examples.fresh examples.bound_with_own)).2
    = examples.fresh examples.bound_with_own.
Proof.
  split; [discriminate|].
  apply (proj1 (proj2 (proj2 (set_question_base_frame
           (examples.fresh examples.bound_with_own) examples.q1
           (set_question_base examples.q1
              (examples.fresh examples.bound_with_own)).1
           (set_question_base examples.q1
              (examples.fresh examples.bound_with_own)).2
           eq_refl)))).
  discriminate.
Defined.


End BindingRoundTrip.

(** ** Permissions *)

Section Permissions.
Import cs_questions.

(** X10. [can_edit] grants a question to the users that carry the key of
    its owner and to nobody else: a user who can edit a question has the
    key of its owner ([None] when neither has been saved), so two users who
    can edit the same question have the same key; a question without owner,
    and the missing user, get no permission. *)
Theorem can_edit_only_owner (q : Question.t) :
  (∀ u, Question.can_edit q (Some u) = true ↔
        ∃ o, Question.owner q = Some o ∧ User.pk o = User.pk u)
  ∧ (∀ u1 u2, Question.can_edit q (Some u1) = true →
              Question.can_edit q (Some u2) = true →
              User.pk u1 = User.pk u2)
  ∧ (∀ user, Question.owner q = None → Question.can_edit q user = false)
  ∧ Question.can_edit q None = false.
Proof.
  unfold Question.can_edit. split; [|split; [|split]].
  - intros u. destruct (Question.owner q) as [o|].
    + rewrite bool_decide_eq_true. split; [by exists o|].
      by intros (o' & [= <-] & Hpk).
    + split; [done|]. by intros (o' & [=] & _).
  - intros u1 u2. destruct (Question.owner q) as [o|]; [|done].
    intros H1%bool_decide_eq_true H2%bool_decide_eq_true. congruence.
  - intros [u|] Ho; [by rewrite Ho|done].
  - done.
Qed.

Lemma can_edit_only_owner_witness :
  Question.can_edit examples.owned_question (Some examples.owner_user) = true
  ∧ Question.can_edit examples.draft_question (Some examples.unsaved_user)
    = true
  ∧ User.pk examples.owner_user = User.pk examples.owner_user
  ∧ Question.can_edit examples.q1 (Some examples.owner_user) = false.
Proof.
  split; [reflexivity|]. split; [reflexivity|]. split.
  - apply (proj1 (proj2 (can_edit_only_owner examples.owned_question))
             examples.owner_user examples.owner_user); reflexivity.
  - apply (proj1 (proj2 (proj2 (can_edit_only_owner examples.q1)))
             (Some examples.owner_user)).
    reflexivity.
Defined.
End Permissions.

(** ** Numeric questions: exact answers, NaN and negative tolerances *)

Section FloatComparison.
Import cs_questions.

Lemma SFcompare_antisym (x y : float) :
  SFcompare y x = option_map CompOpp (SFcompare x y).
Proof.
  destruct x as [sx|sx| |sx mx ex], y as [sy|sy| |sy my ey]; cbn;
    try reflexivity; try (destruct sx; reflexivity);
    try (destruct sy; reflexivity);
    try (destruct sx, sy; reflexivity).
  destruct sx, sy; cbn; try reflexivity;
    rewrite (Z.compare_antisym ex ey);
    destruct (ex ?= ey); cbn; try reflexivity;
    change (PosDef.Pos.compare_cont Eq my mx) with (Pos.compare my mx);
    change (PosDef.Pos.compare_cont Eq mx my) with (Pos.compare mx my);
    rewrite (Pos.compare_antisym mx my);
    by destruct (mx ?= my)%positive.
Qed.

(** [x <= y and y <= x] is [y == x]. *)
Lemma fle_both (x y : float) : fle x y && fle y x = feq y x.
Proof.
  unfold fle, feq, SFleb, SFeqb. rewrite (SFcompare_antisym x y).
  by destruct (SFcompare x y) as [[]|].
Qed.

Lemma fle_nan_r (x : float) : fle x S754_nan = false.
Proof. by destruct x. Qed.

Lemma fsub_nan_r (x : float) : fsub x S754_nan = S754_nan.
Proof. by destruct x. Qed.

Lemma fadd_nan_r (x : float) : fadd x S754_nan = S754_nan.
Proof. by destruct x. Qed.

(** Subtracting or adding [+0.0] leaves the comparisons as they were. *)
Lemma compare_fsub_zero (a v : float) :
  SFcompare (fsub a (S754_zero false)) v = SFcompare a v.
Proof. by destruct a as [[]|[]| |]. Qed.

Lemma compare_fadd_zero (a v : float) :
  SFcompare v (fadd a (S754_zero false)) = SFcompare v a.
Proof. destruct a as [[]|[]| |]; destruct v; reflexivity. Qed.

Lemma feq_zero (t : float) :
  feq t (of_int 0) = true → fabs t = S754_zero false.
Proof. by destruct t as [|[]| |[]]. Qed.

(** Nothing non-negative is below a negative number. *)
Lemma fle_fabs_negative (x t : float) :
  SFltb t (of_int 0) = true → fle (fabs x) t = false.
Proof. by destruct t as [|[]| |[]], x. Qed.
End FloatComparison.

Section NumericEdges.
Import cs_questions.

Implicit Types (q : NumericQuestion.t) (w : World NumericResponse.t).

(** X11. For an exact question ([is_exact], the tolerance is zero)
    [NumericQuestion.grade] stores 100 when the value of the response equals
    the answer as floats ([value == answer]) and 0 otherwise. *)
Theorem exact_question_grade q w :
  NumericQuestion.is_exact q = true →
  NumericQuestion.grade q w =
    (Ok tt,
     mkWorld
       (NumericResponse.set_grade (self w)
          (if feq (NumericResponse.value (self w)) (NumericQuestion.answer q)
           then 100 else 0))
       (saved w ++
          [NumericResponse.set_grade (self w)
             (if feq (NumericResponse.value (self w))
                     (NumericQuestion.answer q)
              then 100 else 0)])).
Proof.
  intros Hexact. rewrite numeric_grade_run. cbv zeta.
  unfold NumericQuestion.start, NumericQuestion.end_.
  rewrite (feq_zero _ Hexact).
  replace (fle (fsub (NumericQuestion.answer q) (S754_zero false))
               (NumericResponse.value (self w))
           && fle (NumericResponse.value (self w))
                  (fadd (NumericQuestion.answer q) (S754_zero false)))
    with (feq (NumericResponse.value (self w)) (NumericQuestion.answer q));
    [done|].
  rewrite <- fle_both. unfold fle, SFleb.
  by rewrite compare_fsub_zero, compare_fadd_zero.
Qed.

Lemma exact_question_grade_witness :
  NumericQuestion.is_exact examples.strict = true
  ∧ examples.graded examples.strict (examples.answered (of_int 10)) = Some 100
  ∧ examples.graded examples.strict (examples.answered (of_ratio 101 10))
    = Some 0.
Proof.
  split; [reflexivity|]. unfold examples.graded. split.
  - rewrite (exact_question_grade examples.strict
               (examples.fresh (examples.answered (of_int 10))) eq_refl).
    reflexivity.
  - rewrite (exact_question_grade examples.strict
               (examples.fresh (examples.answered (of_ratio 101 10))) eq_refl).
    reflexivity.
Defined.

(** X12. A NaN never earns the grade: when the value of the response, the
    answer or the tolerance is NaN, [NumericQuestion.grade] stores 0, and
    [get_grade_from_feedback] gives 0 when the feedback, the answer or the
    tolerance is NaN. *)
Theorem nan_graded_zero q :
  (∀ w, NumericResponse.value (self w) = S754_nan
        ∨ NumericQuestion.answer q = S754_nan
        ∨ NumericQuestion.tolerance q = S754_nan →
        NumericQuestion.grade q w =
          (Ok tt,
           mkWorld (NumericResponse.set_grade (self w) 0)
                   (saved w ++ [NumericResponse.set_grade (self w) 0])))
  ∧ (∀ r d, NumericResponse.feedback_data r = Some d →
            d = S754_nan
            ∨ NumericQuestion.answer q = S754_nan
            ∨ NumericQuestion.tolerance q = S754_nan →
            get_grade_from_feedback q r = Ok 0).
Proof.
  split.
  - intros w Hnan. rewrite numeric_grade_run. cbv zeta.
    unfold NumericQuestion.start, NumericQuestion.end_.
    destruct Hnan as [->|[->| ->]].
    + by rewrite fle_nan_r.
    + done.
    + cbn [fabs SFabs]. rewrite fsub_nan_r. done.
  - intros r d Hd Hnan. unfold get_grade_from_feedback. rewrite Hd.
    destruct Hnan as [->|[->| ->]].
    + done.
    + by rewrite fsub_nan_r.
    + by rewrite fle_nan_r.
Qed.

Lemma nan_graded_zero_witness :
  NumericResponse.value (self (examples.fresh (examples.answered S754_nan)))
    = S754_nan
  ∧ examples.graded examples.ten (examples.answered S754_nan) = Some 0.
Proof.
  split; [reflexivity|]. unfold examples.graded.
  rewrite (proj1 (nan_graded_zero examples.ten)
             (examples.fresh (examples.answered S754_nan))
             (or_introl eq_refl)).
  reflexivity.
Defined.

(** X13. The two ways of grading treat a negative tolerance differently:
    [NumericQuestion.grade] only uses its absolute value, so a question and
    the same question with the opposite tolerance grade alike, while
    [get_grade_from_feedback] gives 0 to every response of a question whose
    tolerance is below zero. *)
Theorem negative_tolerance q :
  (∀ w, NumericQuestion.grade
          (NumericQuestion.mk (NumericQuestion.base q)
             (NumericQuestion.answer q) (SFopp (NumericQuestion.tolerance q)))
          w
        = NumericQuestion.grade q w)
  ∧ (SFltb (NumericQuestion.tolerance q) (of_int 0) = true →
     ∀ r d, NumericResponse.feedback_data r = Some d →
            get_grade_from_feedback q r = Ok 0).
Proof.
  split.
  - intros w. rewrite !numeric_grade_run. cbv zeta.
    unfold NumericQuestion.start, NumericQuestion.end_. cbn.
    by destruct (NumericQuestion.tolerance q).
  - intros Hneg r d Hd. unfold get_grade_from_feedback. rewrite Hd.
    by rewrite fle_fabs_negative.
Qed.

Lemma negative_tolerance_witness :
  SFltb (NumericQuestion.tolerance examples.negative) (of_int 0) = true
  ∧ get_grade_from_feedback examples.negative
      (NumericResponse.set_feedback_data
         (examples.answered (of_int 10)) (of_int 10)) = Ok 0
  ∧ examples.graded examples.negative (examples.answered (of_int 10))
    = Some 100.
Proof.
  split; [reflexivity|]. split; [|reflexivity].
  apply (proj2 (negative_tolerance examples.negative) eq_refl
           (NumericResponse.set_feedback_data
              (examples.answered (of_int 10)) (of_int 10))
           (of_int 10)).
  reflexivity.
Defined.
End NumericEdges.
